(** * Endpoint resolution of the CLARITY frontend (src/frontend/src/config/api.ts)

    A shallow embedding of the API configuration module: the base URL
    [API_BASE_URL] read once from [import.meta.env.VITE_API_URL] with the
    JavaScript [||] default, the helper [getApiUrl] and the object
    [API_ENDPOINTS] built from it at module initialisation. *)

From Stdlib Require Import String Ascii List Bool.
Import ListNotations.
Open Scope string_scope.

(** ** JavaScript values and the operations the module uses *)

(** The values an entry of [import.meta.env] can take: Vite exposes the
    variables it knows as strings and an unknown one reads as [undefined]. *)
Inductive jsval : Type :=
| JUndefined
| JString (s : string).

(** JavaScript truthiness: [undefined] and the empty string are falsy. *)
Definition truthy (v : jsval) : bool :=
  match v with
  | JUndefined => false
  | JString s => negb (String.eqb s "")
  end.

(** [a || b]: [a] when it is truthy, [b] otherwise. *)
Definition js_or (a b : jsval) : jsval :=
  if truthy a then a else b.

(** [String(v)], as a template literal [`${v}`] converts its holes. *)
Definition js_to_string (v : jsval) : string :=
  match v with
  | JUndefined => "undefined"
  | JString s => s
  end.

(** [s.startsWith(p)] on a string receiver: [p] is an initial segment
    of [s], compared code unit by code unit. *)
Fixpoint startsWith (p s : string) : bool :=
  match p, s with
  | EmptyString, _ => true
  | String _ _, EmptyString => false
  | String a p', String b s' => Ascii.eqb a b && startsWith p' s'
  end.

(** Evaluation that can throw, for the totality question: a method call
    on a receiver that is not a string throws a [TypeError]. *)
Inductive js_result (A : Type) : Type :=
| Throw (err : string)
| Return (a : A).
Arguments Throw {A} err.
Arguments Return {A} a.

Definition js_bind {A B} (m : js_result A) (k : A -> js_result B) : js_result B :=
  match m with
  | Throw e => Throw e
  | Return a => k a
  end.

Notation "x <- m ;; k" := (js_bind m (fun x => k))
  (at level 61, m at next level, right associativity).

Definition js_startsWith (recv : jsval) (p : string) : js_result bool :=
  match recv with
  | JUndefined => Throw "TypeError: Cannot read properties of undefined"
  | JString s => Return (startsWith p s)
  end.

(** ** The module *)

(** [export const API_BASE_URL = import.meta.env.VITE_API_URL || '';]
    as a JavaScript value. *)
Definition API_BASE_URL_val (VITE_API_URL : jsval) : jsval :=
  js_or VITE_API_URL (JString "").

(** The spec's [resolveBaseUrl()]: the string [API_BASE_URL] holds, as it
    appears in the template literal of [getApiUrl]. *)
Definition resolveBaseUrl (VITE_API_URL : jsval) : string :=
  js_to_string (API_BASE_URL_val VITE_API_URL).

Section Module.

(** The module-level constant, read once at initialisation. *)
Variable API_BASE_URL : string.

(** [getApiUrl(endpoint)]: the spec's [buildUrl(API_BASE_URL, endpoint)]. *)
Definition getApiUrl (endpoint : string) : string :=
  let normalizedEndpoint :=
    if startsWith "/" endpoint then endpoint else "/" ++ endpoint in
  API_BASE_URL ++ normalizedEndpoint.

(** The object literal [API_ENDPOINTS], its keys in source order. *)
Definition API_ENDPOINTS : list (string * string) :=
  [ ("CLEAN_REPORT", getApiUrl "/clean-report");
    ("CLEAN_REPORT_RUNS", getApiUrl "/clean-report/runs");
    ("LIST_TABLES", getApiUrl "/list-tables");
    ("RUN_ANALYSIS", getApiUrl "/run-analysis");
    ("CHAT", getApiUrl "/chat") ].

(** [getApiUrl] with the endpoint as an arbitrary JavaScript value, so that
    the [startsWith] call may throw. *)
Definition getApiUrl_js (endpoint : jsval) : js_result string :=
  b <- js_startsWith endpoint "/" ;;
  let normalizedEndpoint :=
    if b then js_to_string endpoint else "/" ++ js_to_string endpoint in
  Return (API_BASE_URL ++ normalizedEndpoint).

(** The construction of [API_ENDPOINTS], each property evaluated in turn. *)
Definition API_ENDPOINTS_js : js_result (list (string * string)) :=
  a <- getApiUrl_js (JString "/clean-report") ;;
  b <- getApiUrl_js (JString "/clean-report/runs") ;;
  c <- getApiUrl_js (JString "/list-tables") ;;
  d <- getApiUrl_js (JString "/run-analysis") ;;
  e <- getApiUrl_js (JString "/chat") ;;
  Return [ ("CLEAN_REPORT", a); ("CLEAN_REPORT_RUNS", b);
           ("LIST_TABLES", c); ("RUN_ANALYSIS", d); ("CHAT", e) ].

End Module.

(** The spec's [buildUrl(base, endpoint)]. *)
Definition buildUrl (base endpoint : string) : string := getApiUrl base endpoint.

(** The literal paths of the table, per key. *)
Definition endpoint_paths : list (string * string) :=
  [ ("CLEAN_REPORT", "/clean-report");
    ("CLEAN_REPORT_RUNS", "/clean-report/runs");
    ("LIST_TABLES", "/list-tables");
    ("RUN_ANALYSIS", "/run-analysis");
    ("CHAT", "/chat") ].

(** The module state while it runs: the environment it was loaded with and
    the constant computed from it. A call of [getApiUrl] reads the state. *)
Record ModuleState : Type := {
  meta_env : string -> jsval;
  base_url : string
}.

Definition init_module (env : string -> jsval) : ModuleState :=
  {| meta_env := env; base_url := resolveBaseUrl (env "VITE_API_URL") |}.

(** A call as a state transformer: result and state after the call. *)
Definition getApiUrlM (endpoint : string) (st : ModuleState) : string * ModuleState :=
  (getApiUrl (base_url st) endpoint, st).

(** A string contains two consecutive slashes. *)
Fixpoint has_dslash (s : string) : bool :=
  match s with
  | String a ((String b _) as r) =>
      (Ascii.eqb a "/" && Ascii.eqb b "/") || has_dslash r
  | _ => false
  end.

(** ** Checks on concrete inputs *)

Example getApiUrl_ex1 : getApiUrl "" "clean-report" = "/clean-report".
Proof. reflexivity. Qed.

Example resolveBaseUrl_ex1 : resolveBaseUrl JUndefined = "".
Proof. reflexivity. Qed.

Example has_dslash_ex1 : has_dslash "a//b" = true /\ has_dslash "/a/b" = false.
Proof. split; reflexivity. Qed.

(** * Shell scripts

    Common part of the two scripts under [set -e]. *)

(** [set -e]: commands run in order until the first one that fails. The
    result is the commands run and whether all of them succeeded. *)
Fixpoint run_set_e {C : Type} (ok : C -> bool) (cs : list C) : list C * bool :=
  match cs with
  | [] => ([], true)
  | c :: rest =>
      if ok c then let '(t, b) := run_set_e ok rest in (c :: t, b)
      else ([c], false)
  end.

Inductive exit_status : Type := Exit0 | ExitNonzero.

(** ** build-and-push.sh

    The script as the sequence of [docker] invocations it makes. Printing
    ([echo]) is taken to succeed and is left out of the trace; the result of
    [SCRIPT_DIR="$(cd "$(dirname "$0")" && pwd)"] is an input. Unquoted
    expansions are field-split on the default [IFS]; pathname expansion of
    their results is not modelled. Whether a [docker] invocation succeeds is
    decided by an oracle [ok]. *)
Module BuildAndPush.

(** The environment variables the script reads ([None]: unset). *)
Record Env : Type := {
  DOCKER_REPO_URL : option string;
  ENV : option string;
  TAG : option string
}.

(** [$V] of an unset variable expands to the empty string. *)
Definition param_value (v : option string) : string :=
  match v with Some s => s | None => "" end.

(** [${V:-d}]: [d] when [V] is unset or empty. *)
Definition default_param (v : option string) (d : string) : string :=
  match v with
  | Some s => if String.eqb s "" then d else s
  | None => d
  end.

(** [[ -z "$V" ]]. *)
Definition test_z (v : option string) : bool := String.eqb (param_value v) "".

(** Default [IFS]: space, tab, newline. *)
Definition is_ifs (c : ascii) : bool :=
  Ascii.eqb c " " || Ascii.eqb c "009" || Ascii.eqb c "010".

(** Field splitting of the result of an unquoted expansion. *)
Fixpoint fields_aux (s cur : string) : list string :=
  match s with
  | EmptyString => if String.eqb cur "" then [] else [cur]
  | String c r =>
      if is_ifs c
      then (if String.eqb cur "" then fields_aux r "" else cur :: fields_aux r "")
      else fields_aux r (cur ++ String c "")
  end.

Definition fields (s : string) : list string := fields_aux s "".


Inductive cmd : Type :=
| Docker (argv : list string).

Definition docker_info : cmd := Docker ["info"].

(** [docker build], [docker tag] and [docker push] for one image; [extra] are
    the [--build-arg] words of the proxy image. *)
Definition image_cmds (repo tag script_dir name sub : string) (extra : list string)
  : list cmd :=
  [ Docker (["build"; "--rm"; "--platform"; "linux/amd64"; "--tag"] ++
            fields (name ++ ":" ++ tag) ++ extra ++
            ["--file"; script_dir ++ "/" ++ sub ++ "/Dockerfile";
             script_dir ++ "/" ++ sub]);
    Docker (["tag"] ++ fields (name ++ ":" ++ tag) ++
            fields (repo ++ "/" ++ name ++ ":" ++ tag));
    Docker (["push"] ++ fields (repo ++ "/" ++ name ++ ":" ++ tag)) ].

(** The three images, in the order the script builds them. *)
Definition plan (repo tag script_dir : string) : list cmd :=
  image_cmds repo tag script_dir "clarity-backend" "backend" [] ++
  image_cmds repo tag script_dir "clarity-frontend" "frontend" [] ++
  image_cmds repo tag script_dir "clarity-proxy" "proxy"
    ["--build-arg"; "FRONTEND_SERVICE=localhost:8080";
     "--build-arg"; "BACKEND_SERVICE=localhost:8082"].

(** The whole script: the Docker check, the [DOCKER_REPO_URL] check, the
    defaults ([ENV] is only printed), then the three images. *)
Definition build_and_push (ok : cmd -> bool) (env : Env) (script_dir : string)
  : list cmd * exit_status :=
  if negb (ok docker_info) then ([docker_info], ExitNonzero)
  else if test_z (DOCKER_REPO_URL env) then ([docker_info], ExitNonzero)
  else
    let repo := param_value (DOCKER_REPO_URL env) in
    let tag := default_param (TAG env) "latest" in
    let '(t, b) := run_set_e ok (plan repo tag script_dir) in
    (docker_info :: t, if b then Exit0 else ExitNonzero).


Example fields_ex : fields " a  b:c " = ["a"; "b:c"].
Proof. reflexivity. Qed.

End BuildAndPush.

(** ** scripts/generate-keys.sh

    The commands the script runs after its prompt, as argument lists (all
    their expansions are quoted, so none is split). Printing is taken to
    succeed. [KEYS_DIR] is an input, as are the outcome of the existence
    test, the line [read] returns ([None]: end of input, [read] fails and
    [set -e] stops the script) and the text [openssl] writes to
    [public_key.pem]. *)
Module GenerateKeys.

Definition genrsa_cmd (KEYS_DIR : string) : list string :=
  ["openssl"; "genrsa"; "-out"; KEYS_DIR ++ "/private_key.pem"; "2048"].

Definition pubout_cmd (KEYS_DIR : string) : list string :=
  ["openssl"; "rsa"; "-in"; KEYS_DIR ++ "/private_key.pem"; "-pubout";
   "-out"; KEYS_DIR ++ "/public_key.pem"].

Definition chmod_cmd (KEYS_DIR : string) : list string :=
  ["chmod"; "600"; KEYS_DIR ++ "/private_key.pem"].

Definition key_cmds (KEYS_DIR : string) : list (list string) :=
  [ ["mkdir"; "-p"; KEYS_DIR]; genrsa_cmd KEYS_DIR; pubout_cmd KEYS_DIR;
    chmod_cmd KEYS_DIR ].

Definition nl : string := String "010" EmptyString.

(** Concatenation of a list of strings. *)
Fixpoint str_concat (ls : list string) : string :=
  match ls with
  | [] => ""
  | x :: r => x ++ str_concat r
  end.

Fixpoint no_newline (s : string) : bool :=
  match s with
  | EmptyString => true
  | String c r => negb (Ascii.eqb c "010") && no_newline r
  end.

(** [s] contains [pat] as a substring (a [grep] pattern without special
    characters). *)
Fixpoint contains (pat s : string) : bool :=
  startsWith pat s ||
  match s with
  | EmptyString => false
  | String _ r => contains pat r
  end.

(** The lines [grep] reads: split on newlines, a last line without a
    newline included. *)
Fixpoint lines_aux (s cur : string) : list string :=
  match s with
  | EmptyString => if String.eqb cur "" then [] else [cur]
  | String c r =>
      if Ascii.eqb c "010" then cur :: lines_aux r ""
      else lines_aux r (cur ++ String c "")
  end.

Definition lines (s : string) : list string := lines_aux s "".

(** [grep -v pat]: the lines not containing [pat], each ended by a newline. *)
Definition grep_v (pat text : string) : string :=
  str_concat (map (fun l => l ++ nl)
                  (filter (fun l => negb (contains pat l)) (lines text))).

(** [tr -d c]. *)
Fixpoint tr_d (c : ascii) (s : string) : string :=
  match s with
  | EmptyString => EmptyString
  | String a r => if Ascii.eqb a c then tr_d c r else String a (tr_d c r)
  end.

(** [cat public_key.pem | grep -v "PUBLIC KEY" | tr -d '\n']. *)
Definition display (pub_pem : string) : string :=
  tr_d "010" (grep_v "PUBLIC KEY" pub_pem).

(** The script: the overwrite prompt when [KEYS_DIR] and the private key
    exist, then the key commands under [set -e], then the display. The
    result is the commands run, the exit status and the displayed key. *)
Definition generate_keys (ok : list string -> bool) (dir_exists key_exists : bool)
  (OVERWRITE : option string) (KEYS_DIR pub_pem : string)
  : list (list string) * exit_status * string :=
  let proceed :=
    let '(t, b) := run_set_e ok (key_cmds KEYS_DIR) in
    if b then (t, Exit0, display pub_pem) else (t, ExitNonzero, "") in
  if dir_exists && key_exists then
    match OVERWRITE with
    | None => ([], ExitNonzero, "")
    | Some a =>
        if negb (String.eqb a "y") && negb (String.eqb a "Y")
        then ([], Exit0, "")
        else proceed
    end
  else proceed.

(** A public key file as [openssl] writes it: header, body lines, footer. *)
Definition pem_of (body : list string) : string :=
  "-----BEGIN PUBLIC KEY-----" ++ nl ++
  str_concat (map (fun l => l ++ nl) body) ++
  "-----END PUBLIC KEY-----" ++ nl.

Example display_ex : display (pem_of ["MIIBIj"; "ANBgkq"]) = "MIIBIjANBgkq".
Proof. reflexivity. Qed.

End GenerateKeys.


(** ** Lemmas on the string operations *)

Lemma startsWith_slash_iff (e : string) :
  startsWith "/" e = true <-> exists r, e = String "/" r.
Proof.
  split.
  - destruct e as [|c r]; [intros Hf; discriminate Hf|].
    cbn [startsWith]; rewrite andb_true_r; intros Hc.
    apply Ascii.eqb_eq in Hc; subst c; exists r; reflexivity.
  - intros [r ->]; reflexivity.
Qed.

Lemma startsWith_slash_false (e : string) :
  startsWith "/" e = false ->
  e = EmptyString \/ exists c r, e = String c r /\ c <> "/"%char.
Proof.
  destruct e as [|c r]; [now left|].
  cbn [startsWith]; rewrite andb_true_r; intros Hc.
  right; exists c, r; split; [reflexivity|].
  intros ->; discriminate Hc.
Qed.

Lemma startsWith_dslash_cons (e : string) :
  startsWith "//" (String "/" e) = startsWith "/" e.
Proof. reflexivity. Qed.

Lemma startsWith_dslash_slash (e : string) :
  startsWith "/" e = false -> startsWith "//" e = false.
Proof.
  destruct e as [|c r]; [reflexivity|].
  cbn [startsWith]; rewrite andb_true_r; intros Hc; rewrite Hc; reflexivity.
Qed.

Lemma has_dslash_cons_slash (e : string) :
  startsWith "/" e = false -> has_dslash (String "/" e) = has_dslash e.
Proof.
  destruct e as [|c r]; [reflexivity|].
  cbn [startsWith]; rewrite andb_true_r; intros Hc.
  change (has_dslash (String "/" (String c r)))
    with ((Ascii.eqb "/" "/" && Ascii.eqb c "/") || has_dslash (String c r)).
  rewrite (Ascii.eqb_sym c), Hc; reflexivity.
Qed.

Lemma startsWith_app (s t : string) : startsWith s (s ++ t) = true.
Proof.
  induction s as [|a s IH]; [destruct t; reflexivity|].
  cbn [startsWith append]; rewrite Ascii.eqb_refl; exact IH.
Qed.

Lemma getApiUrl_cases (base e : string) :
  (startsWith "/" e = true /\ getApiUrl base e = base ++ e) \/
  (startsWith "/" e = false /\ getApiUrl base e = base ++ String "/" e).
Proof.
  unfold getApiUrl; destruct (startsWith "/" e); [left|right]; split; reflexivity.
Qed.

(** The normalised endpoint, as [getApiUrl] computes it. *)
Lemma getApiUrl_split (base e : string) :
  exists p, getApiUrl base e = base ++ p /\ startsWith "/" p = true /\
            startsWith "//" p = startsWith "//" e /\ has_dslash p = has_dslash e.
Proof.
  destruct (getApiUrl_cases base e) as [[Hs ->]|[Hs ->]].
  - exists e; repeat split; assumption.
  - exists (String "/" e); repeat split.
    + rewrite startsWith_dslash_cons, Hs; symmetry; apply startsWith_dslash_slash, Hs.
    + apply has_dslash_cons_slash, Hs.
Qed.

(** ** Claims *)

(** C1: [buildUrl base e] is [base ++ e] when [e] starts with ['/'], and
    [base ++ "/" ++ e] otherwise; nothing else is done to either part. *)
Theorem buildUrl_concat_normalized (base e : string) :
  ((exists r, e = String "/" r) /\ buildUrl base e = base ++ e) \/
  ((forall r, e <> String "/" r) /\ buildUrl base e = base ++ "/" ++ e).
Proof.
  unfold buildUrl.
  destruct (getApiUrl_cases base e) as [[Hs ->]|[Hs ->]].
  - left; split; [apply startsWith_slash_iff, Hs|reflexivity].
  - right; split; [|reflexivity].
    intros r ->; discriminate Hs.
Qed.

(** C2 (as stated, refuted): with the empty base an endpoint ["//x"] is
    kept as it is, so the path begins with two slashes; and a base ending
    in ['/'] gives a double slash at the junction. *)
Lemma buildUrl_double_slash_counterexample :
  buildUrl "" "//x" = "//x" /\ startsWith "//" (buildUrl "" "//x") = true /\
  has_dslash (buildUrl "" "//x") = true /\
  buildUrl "http://h/" "/chat" = "http://h//chat" /\
  has_dslash (buildUrl "http://h/" "/chat") = true /\
  has_dslash "/chat" = false.
Proof. repeat split; reflexivity. Qed.

(** C2 (amended): [buildUrl base e] is [base] followed by a path [p] that
    begins with ['/']; [p] begins with ["//"] exactly when [e] does and
    contains ["//"] exactly when [e] does; [base] is not inspected. Every
    value of the endpoint table is [base] followed by a path with exactly
    one leading ['/'] and no ["//"]. *)
Theorem buildUrl_path_slashes (base e : string) :
  (exists p, buildUrl base e = base ++ p /\ startsWith "/" p = true /\
             startsWith "//" p = startsWith "//" e /\ has_dslash p = has_dslash e) /\
  Forall (fun kv => exists p, snd kv = base ++ p /\ startsWith "/" p = true /\
                              startsWith "//" p = false /\ has_dslash p = false)
         (API_ENDPOINTS base).
Proof.
  split; [apply getApiUrl_split|].
  unfold API_ENDPOINTS.
  repeat constructor; cbn [snd];
    match goal with
    | |- exists p, getApiUrl base ?lit = _ /\ _ =>
        destruct (getApiUrl_split base lit) as (p & Hp & H1 & H2 & H3);
        exists p; rewrite Hp, H2, H3; repeat split; assumption
    end.
Qed.

(** C3: [resolveBaseUrl v] is [v] itself when [v] is a non-empty string, and
    the empty string when [v] is absent or empty. *)
Theorem resolveBaseUrl_spec (v : jsval) :
  (exists s, v = JString s /\ s <> "" /\ resolveBaseUrl v = s) \/
  ((v = JUndefined \/ v = JString "") /\ resolveBaseUrl v = "").
Proof.
  destruct v as [|s]; [right; split; [now left|reflexivity]|].
  unfold resolveBaseUrl, API_BASE_URL_val, js_or; cbn [truthy].
  destruct (String.eqb s "") eqn:Hs.
  - apply String.eqb_eq in Hs; subst s; right; split; [now right|reflexivity].
  - left; exists s; split; [reflexivity|]; split; [|reflexivity].
    intros ->; discriminate Hs.
Qed.

(** C4: when [e] does not start with ['/'], [buildUrl base e] is [base]
    followed by exactly one ['/'] and a rest that does not start with ['/'];
    when it does, [e] follows [base] with no slash inserted. *)
Theorem buildUrl_single_leading_slash (base e : string) :
  (startsWith "/" e = false /\
   exists rest, buildUrl base e = base ++ String "/" rest /\
                startsWith "/" rest = false) \/
  (startsWith "/" e = true /\ buildUrl base e = base ++ e).
Proof.
  unfold buildUrl.
  destruct (getApiUrl_cases base e) as [[Hs ->]|[Hs ->]].
  - right; split; [exact Hs|reflexivity].
  - left; split; [exact Hs|]; exists e; split; [reflexivity|exact Hs].
Qed.

(** C5: the table has exactly the five keys, each bound to [base] followed
    by its normalised literal path; with the empty base it is the table of
    the bare paths. *)
Theorem API_ENDPOINTS_table (base : string) :
  map fst (API_ENDPOINTS base) =
    ["CLEAN_REPORT"; "CLEAN_REPORT_RUNS"; "LIST_TABLES"; "RUN_ANALYSIS"; "CHAT"] /\
  NoDup (map fst (API_ENDPOINTS base)) /\
  API_ENDPOINTS base =
    map (fun kp => (fst kp, base ++ (if startsWith "/" (snd kp) then snd kp
                                     else "/" ++ snd kp))) endpoint_paths /\
  API_ENDPOINTS "" =
    [ ("CLEAN_REPORT", "/clean-report");
      ("CLEAN_REPORT_RUNS", "/clean-report/runs");
      ("LIST_TABLES", "/list-tables");
      ("RUN_ANALYSIS", "/run-analysis");
      ("CHAT", "/chat") ].
Proof.
  split; [reflexivity|]; split; [|split; reflexivity].
  cbn [map fst API_ENDPOINTS].
  repeat constructor; cbn [In]; intuition discriminate.
Qed.

(** C6: the three concrete scenarios of the spec. *)
Theorem concrete_scenarios :
  resolveBaseUrl JUndefined = "" /\
  buildUrl (resolveBaseUrl JUndefined) "clean-report" = "/clean-report" /\
  buildUrl (resolveBaseUrl (JString "http://127.0.0.1:8082")) "/chat" =
    "http://127.0.0.1:8082/chat" /\
  buildUrl (resolveBaseUrl (JString "http://127.0.0.1:8082")) "list-tables" =
    "http://127.0.0.1:8082/list-tables".
Proof. repeat split; reflexivity. Qed.

(** C7: for every configuration value, absent included, [API_BASE_URL] is a
    string (never [undefined]), and [getApiUrl] on any string endpoint and
    the construction of [API_ENDPOINTS] return without throwing. *)
Theorem operations_total (v : jsval) (e : string) :
  API_BASE_URL_val v = JString (resolveBaseUrl v) /\
  getApiUrl_js (resolveBaseUrl v) (JString e) =
    Return (getApiUrl (resolveBaseUrl v) e) /\
  API_ENDPOINTS_js (resolveBaseUrl v) = Return (API_ENDPOINTS (resolveBaseUrl v)).
Proof.
  split; [|split; reflexivity].
  unfold resolveBaseUrl, API_BASE_URL_val, js_or.
  destruct (truthy v) eqn:Ht; [|reflexivity].
  destruct v as [|s]; [discriminate Ht|reflexivity].
Qed.

(** C8: a call of [getApiUrl] reads only the base URL of the module state
    and its argument, leaves the state unchanged, and a second call with the
    same endpoint returns the same string. *)
Theorem getApiUrl_pure (st1 st2 : ModuleState) (e : string)
  (Hbase : base_url st1 = base_url st2) :
  getApiUrlM e st1 = (buildUrl (base_url st1) e, st1) /\
  fst (getApiUrlM e st1) = fst (getApiUrlM e st2) /\
  fst (getApiUrlM e (snd (getApiUrlM e st1))) = fst (getApiUrlM e st1).
Proof.
  unfold getApiUrlM, buildUrl; cbn [fst snd]; rewrite Hbase; repeat split.
Qed.

Lemma getApiUrl_pure_witness :
  base_url (init_module (fun k => if String.eqb k "VITE_API_URL"
                                  then JString "http://127.0.0.1:8082"
                                  else JUndefined)) =
  base_url (init_module (fun k => if String.eqb k "VITE_API_URL"
                                  then JString "http://127.0.0.1:8082"
                                  else JString "other")) /\
  getApiUrlM "chat" (init_module (fun k => if String.eqb k "VITE_API_URL"
                                  then JString "http://127.0.0.1:8082"
                                  else JUndefined)) =
    (buildUrl "http://127.0.0.1:8082" "chat",
     init_module (fun k => if String.eqb k "VITE_API_URL"
                           then JString "http://127.0.0.1:8082" else JUndefined)) /\
  fst (getApiUrlM "chat" (init_module (fun k => if String.eqb k "VITE_API_URL"
                                  then JString "http://127.0.0.1:8082"
                                  else JUndefined))) =
  fst (getApiUrlM "chat" (init_module (fun k => if String.eqb k "VITE_API_URL"
                                  then JString "http://127.0.0.1:8082"
                                  else JString "other"))).
Proof.
  assert (Hb : base_url (init_module (fun k => if String.eqb k "VITE_API_URL"
                                  then JString "http://127.0.0.1:8082"
                                  else JUndefined)) =
               base_url (init_module (fun k => if String.eqb k "VITE_API_URL"
                                  then JString "http://127.0.0.1:8082"
                                  else JString "other"))) by reflexivity.
  destruct (getApiUrl_pure _ _ "chat" Hb) as (H1 & H2 & _).
  split; [exact Hb|]; split; [exact H1|exact H2].
Defined.

(** C9: the empty endpoint is normalised to ["/"]. *)
Theorem getApiUrl_empty_endpoint (base : string) :
  getApiUrl base "" = base ++ "/".
Proof. reflexivity. Qed.

(** C10: with the empty base normalisation is idempotent; for every base the
    base is a prefix of the result, and an endpoint that starts with ['/']
    follows it verbatim. *)
Theorem getApiUrl_idempotent_prefix (base e : string) :
  getApiUrl "" (getApiUrl "" e) = getApiUrl "" e /\
  startsWith base (getApiUrl base e) = true /\
  (startsWith "/" e = true -> getApiUrl base e = base ++ e).
Proof.
  split; [|split; [apply startsWith_app|]].
  - destruct (getApiUrl_split "" e) as (p & Hp & H1 & _).
    rewrite Hp; cbn [append]; unfold getApiUrl; rewrite H1; reflexivity.
  - intros Hs; unfold getApiUrl; rewrite Hs; reflexivity.
Qed.

(** ** Further properties of api.ts *)

Lemma startsWith_slash_cons (e : string) : startsWith "/" (String "/" e) = true.
Proof. reflexivity. Qed.

Lemma str_append_assoc (a b c : string) : a ++ (b ++ c) = (a ++ b) ++ c.
Proof. induction a as [|x a IH]; [reflexivity|cbn [append]; rewrite IH; reflexivity]. Qed.

Lemma append_cancel_l (b x y : string) : b ++ x = b ++ y -> x = y.
Proof.
  induction b as [|c b IH]; [tauto|].
  cbn [append]; intros H; injection H; exact IH.
Qed.

(** Two endpoints resolve to the same URL exactly when they are equal or one
    is the other with a single ['/'] put in front of it (and the other does
    not start with ['/']). *)
Theorem getApiUrl_collision (base e1 e2 : string) :
  getApiUrl base e1 = getApiUrl base e2 <->
  e1 = e2 \/
  (e1 = String "/" e2 /\ startsWith "/" e2 = false) \/
  (e2 = String "/" e1 /\ startsWith "/" e1 = false).
Proof.
  split.
  - unfold getApiUrl; intros H; apply append_cancel_l in H.
    destruct (startsWith "/" e1) eqn:H1, (startsWith "/" e2) eqn:H2.
    + now left.
    + right; left; split; [exact H|reflexivity].
    + right; right; split; [symmetry; exact H|reflexivity].
    + left; injection H; trivial.
  - unfold getApiUrl; intros [->|[[-> H2]|[-> H1]]]; [reflexivity| |];
      rewrite startsWith_slash_cons.
    + rewrite H2; reflexivity.
    + rewrite H1; reflexivity.
Qed.

(** For every base the five table entries resolve to five distinct URLs. *)
Theorem API_ENDPOINTS_urls_distinct (base : string) :
  NoDup (map snd (API_ENDPOINTS base)).
Proof.
  cbn [map snd API_ENDPOINTS].
  repeat constructor; cbn [In]; intros Hin;
    repeat destruct Hin as [Hin|Hin]; try exact Hin;
    apply append_cancel_l in Hin; discriminate Hin.
Qed.

(** The runs listing URL is the clean report URL followed by ["/runs"]. *)
Theorem clean_report_runs_extends (base : string) :
  getApiUrl base "/clean-report/runs" = getApiUrl base "/clean-report" ++ "/runs".
Proof.
  unfold getApiUrl; cbn [startsWith Ascii.eqb Bool.eqb andb].
  rewrite <- str_append_assoc; reflexivity.
Qed.

(** The [|| ''] default only replaces [undefined]: a configured string,
    the empty one included, is used as it is. *)
Theorem resolveBaseUrl_string (v : jsval) :
  resolveBaseUrl v = match v with JUndefined => "" | JString s => s end.
Proof.
  unfold resolveBaseUrl, API_BASE_URL_val, js_or.
  destruct v as [|s]; [reflexivity|]; cbn [truthy].
  destruct (String.eqb s "") eqn:Hs; [|reflexivity].
  apply String.eqb_eq in Hs; subst s; reflexivity.
Qed.


(** Resolving an already resolved relative path against a base gives the
    same URL as resolving the raw endpoint. *)
Theorem getApiUrl_normalize_first (base e : string) :
  getApiUrl base (getApiUrl "" e) = getApiUrl base e.
Proof.
  unfold getApiUrl; destruct (startsWith "/" e) eqn:Hs; cbn [append].
  - rewrite Hs; reflexivity.
  - rewrite startsWith_slash_cons; reflexivity.
Qed.

(** * Properties of the shell scripts *)

Lemma str_append_nil_r (s : string) : s ++ "" = s.
Proof. induction s as [|c s IH]; [reflexivity|cbn [append]; rewrite IH; reflexivity]. Qed.

Lemma run_set_e_spec {C : Type} (ok : C -> bool) (cs : list C) :
  (exists k, fst (run_set_e ok cs) = firstn k cs) /\
  snd (run_set_e ok cs) = forallb ok cs.
Proof.
  induction cs as [|c cs [[k Hk] Hb]]; [split; [exists 0|]; reflexivity|].
  cbn [run_set_e forallb]; destruct (ok c).
  - destruct (run_set_e ok cs) as [t b]; cbn [fst snd] in *.
    split; [exists (S k); rewrite Hk; reflexivity|exact Hb].
  - split; [exists 1; reflexivity|reflexivity].
Qed.

Lemma run_set_e_all_ok {C : Type} (ok : C -> bool) (cs : list C) :
  forallb ok cs = true -> run_set_e ok cs = (cs, true).
Proof.
  induction cs as [|c cs IH]; [reflexivity|].
  cbn [forallb run_set_e]; intros H; apply andb_true_iff in H as [Hc Hr].
  rewrite Hc, (IH Hr); reflexivity.
Qed.

(** A command is only run when every distinct command before it succeeded. *)
Lemma run_set_e_before {C : Type} (ok : C -> bool) (pre post : list C) (c : C) :
  ~ In c pre -> In c (fst (run_set_e ok (pre ++ c :: post))) -> forallb ok pre = true.
Proof.
  induction pre as [|x pre IH]; [reflexivity|].
  intros Hn Hin; cbn [app run_set_e forallb] in *.
  destruct (ok x); cbn [andb].
  - apply IH; [intros H; apply Hn; now right|].
    destruct (run_set_e ok (pre ++ c :: post)) as [t b]; cbn [fst In] in *.
    destruct Hin as [->|Hin]; [exfalso; apply Hn; now left|exact Hin].
  - cbn [fst In] in Hin; destruct Hin as [->|[]]; exfalso; apply Hn; now left.
Qed.

Module BuildAndPushFacts.
Import BuildAndPush.




(** Nothing but [docker info] runs unless Docker answers and
    [DOCKER_REPO_URL] is set and non-empty. *)
Theorem build_and_push_gate (ok : cmd -> bool) (env : Env) (dir : string) (c : cmd)
  (Hin : In c (fst (build_and_push ok env dir))) (Hc : c <> docker_info) :
  ok docker_info = true /\ test_z (DOCKER_REPO_URL env) = false.
Proof.
  unfold build_and_push in Hin.
  destruct (ok docker_info); [|cbn in Hin; destruct Hin as [H|[]]; exfalso; apply Hc; rewrite <- H; reflexivity].
  destruct (test_z (DOCKER_REPO_URL env)); [|split; reflexivity].
  cbn in Hin; destruct Hin as [H|[]]; exfalso; apply Hc; rewrite <- H; reflexivity.
Qed.

Lemma build_and_push_gate_witness :
  let ok := fun _ : cmd => true in
  let env := {| DOCKER_REPO_URL := Some "reg.example/DB/SCHEMA/REPO";
                ENV := None; TAG := None |} in
  In (Docker ["push"; "reg.example/DB/SCHEMA/REPO/clarity-proxy:latest"])
     (fst (build_and_push ok env "/src")) /\
  Docker ["push"; "reg.example/DB/SCHEMA/REPO/clarity-proxy:latest"] <> docker_info /\
  (ok docker_info = true /\ test_z (DOCKER_REPO_URL env) = false).
Proof.
  cbv zeta.
  assert (Hin : In (Docker ["push"; "reg.example/DB/SCHEMA/REPO/clarity-proxy:latest"])
     (fst (build_and_push (fun _ => true)
             {| DOCKER_REPO_URL := Some "reg.example/DB/SCHEMA/REPO";
                ENV := None; TAG := None |} "/src"))).
  { vm_compute; tauto. }
  assert (Hc : Docker ["push"; "reg.example/DB/SCHEMA/REPO/clarity-proxy:latest"]
               <> docker_info) by discriminate.
  split; [exact Hin|split; [exact Hc|exact (build_and_push_gate _ _ _ _ Hin Hc)]].
Defined.

(** Under [set -e] the script runs [docker info] and then an initial part of
    the plan; it exits 0 exactly when Docker answers, [DOCKER_REPO_URL] is
    set and non-empty, and every command of the plan succeeds. *)
Theorem build_and_push_prefix_status (ok : cmd -> bool) (env : Env) (dir : string) :
  (exists k, fst (build_and_push ok env dir) =
     docker_info :: firstn k (plan (param_value (DOCKER_REPO_URL env))
                                   (default_param (TAG env) "latest") dir)) /\
  (snd (build_and_push ok env dir) = Exit0 <->
   ok docker_info = true /\ test_z (DOCKER_REPO_URL env) = false /\
   forallb ok (plan (param_value (DOCKER_REPO_URL env))
                    (default_param (TAG env) "latest") dir) = true).
Proof.
  unfold build_and_push.
  destruct (ok docker_info) eqn:Hi; cbn [negb].
  2:{ split; [exists 0; reflexivity|]; split; [intros H; discriminate H|].
      intros [H _]; discriminate H. }
  destruct (test_z (DOCKER_REPO_URL env)) eqn:Hz.
  { split; [exists 0; reflexivity|]; split; [intros H; discriminate H|].
    intros [_ [H _]]; discriminate H. }
  destruct (run_set_e_spec ok (plan (param_value (DOCKER_REPO_URL env))
                                   (default_param (TAG env) "latest") dir))
    as [[k Hk] Hb].
  destruct (run_set_e ok _) as [t b]; cbn [fst snd] in *.
  split; [exists k; rewrite Hk; reflexivity|].
  subst b; destruct (forallb ok _).
  - split; [intros _; repeat split|reflexivity].
  - split; [intros H; discriminate H|intros (_ & _ & H); discriminate H].
Qed.



End BuildAndPushFacts.

Module GenerateKeysFacts.
Import GenerateKeys.

(** Existing keys are regenerated only after the answer [y] or [Y]. *)
Theorem generate_keys_no_overwrite (ok : list string -> bool)
  (dir_exists key_exists : bool) (ans : option string) (KEYS_DIR pem : string)
  (Hex : dir_exists && key_exists = true)
  (Hin : In (genrsa_cmd KEYS_DIR)
            (fst (fst (generate_keys ok dir_exists key_exists ans KEYS_DIR pem)))) :
  ans = Some "y" \/ ans = Some "Y".
Proof.
  unfold generate_keys in Hin; rewrite Hex in Hin.
  destruct ans as [a|]; [|destruct Hin].
  destruct (String.eqb a "y") eqn:Hy; [left; apply String.eqb_eq in Hy; subst; reflexivity|].
  destruct (String.eqb a "Y") eqn:HY; [right; apply String.eqb_eq in HY; subst; reflexivity|].
  destruct Hin.
Qed.

Lemma generate_keys_no_overwrite_witness :
  true && true = true /\
  In (genrsa_cmd "/p/keys")
     (fst (fst (generate_keys (fun _ => true) true true (Some "Y") "/p/keys" ""))) /\
  (Some "Y" = Some "y" \/ Some "Y" = Some "Y").
Proof.
  assert (Hin : In (genrsa_cmd "/p/keys")
     (fst (fst (generate_keys (fun _ => true) true true (Some "Y") "/p/keys" "")))).
  { vm_compute; right; left; reflexivity. }
  split; [reflexivity|]; split; [exact Hin|].
  exact (generate_keys_no_overwrite _ true true _ _ _ eq_refl Hin).
Defined.

(** The script exits 0 either because the user declined to overwrite
    existing keys, having run nothing, or because all four key commands ran
    and succeeded (the private key ends with mode 600), in which case it
    displays the public key. *)
Theorem generate_keys_exit0 (ok : list string -> bool)
  (dir_exists key_exists : bool) (ans : option string) (KEYS_DIR pem : string)
  (Hx : snd (fst (generate_keys ok dir_exists key_exists ans KEYS_DIR pem)) = Exit0) :
  (fst (fst (generate_keys ok dir_exists key_exists ans KEYS_DIR pem)) = [] /\
   dir_exists && key_exists = true /\
   exists a, ans = Some a /\ a <> "y" /\ a <> "Y") \/
  (fst (fst (generate_keys ok dir_exists key_exists ans KEYS_DIR pem)) = key_cmds KEYS_DIR /\
   forallb ok (key_cmds KEYS_DIR) = true /\
   snd (generate_keys ok dir_exists key_exists ans KEYS_DIR pem) = display pem).
Proof.
  assert (Hp : forall r : list (list string) * exit_status * string,
            r = (let '(t, b) := run_set_e ok (key_cmds KEYS_DIR) in
                 if b then (t, Exit0, display pem) else (t, ExitNonzero, "")) ->
            snd (fst r) = Exit0 ->
            fst (fst r) = key_cmds KEYS_DIR /\ forallb ok (key_cmds KEYS_DIR) = true /\
            snd r = display pem).
  { intros r -> Hr.
    destruct (run_set_e_spec ok (key_cmds KEYS_DIR)) as [_ Hb].
    destruct (forallb ok (key_cmds KEYS_DIR)) eqn:Hf.
    - rewrite (run_set_e_all_ok _ _ Hf); repeat split.
    - destruct (run_set_e ok (key_cmds KEYS_DIR)) as [t b]; cbn [snd] in Hb; subst b.
      discriminate Hr. }
  unfold generate_keys in *; cbv zeta in *.
  destruct (dir_exists && key_exists) eqn:Hex; [|right; exact (Hp _ eq_refl Hx)].
  destruct ans as [a|]; [|discriminate Hx].
  destruct (String.eqb a "y") eqn:Hy; [right; exact (Hp _ eq_refl Hx)|].
  destruct (String.eqb a "Y") eqn:HY; [right; exact (Hp _ eq_refl Hx)|].
  left; split; [reflexivity|]; split; [reflexivity|].
  exists a; split; [reflexivity|]; split; intros ->; discriminate.
Qed.

Lemma generate_keys_exit0_witness :
  snd (fst (generate_keys (fun _ => true) false false None "/p/keys" "")) = Exit0 /\
  fst (fst (generate_keys (fun _ => true) false false None "/p/keys" "")) =
    key_cmds "/p/keys".
Proof.
  assert (Hx : snd (fst (generate_keys (fun _ => true) false false None "/p/keys" ""))
               = Exit0) by reflexivity.
  split; [exact Hx|].
  destruct (generate_keys_exit0 _ _ _ _ _ _ Hx) as [(_ & H & _)|(H & _)];
    [discriminate H|exact H].
Defined.

(** [chmod 600] on the private key runs only after [mkdir], [genrsa] and the
    public key extraction all succeeded. *)
Theorem generate_keys_chmod_after (ok : list string -> bool)
  (dir_exists key_exists : bool) (ans : option string) (KEYS_DIR pem : string)
  (Hin : In (chmod_cmd KEYS_DIR)
            (fst (fst (generate_keys ok dir_exists key_exists ans KEYS_DIR pem)))) :
  ok ["mkdir"; "-p"; KEYS_DIR] = true /\ ok (genrsa_cmd KEYS_DIR) = true /\
  ok (pubout_cmd KEYS_DIR) = true.
Proof.
  assert (Hp : In (chmod_cmd KEYS_DIR) (fst (run_set_e ok (key_cmds KEYS_DIR))) ->
               ok ["mkdir"; "-p"; KEYS_DIR] = true /\ ok (genrsa_cmd KEYS_DIR) = true /\
               ok (pubout_cmd KEYS_DIR) = true).
  { intros H.
    assert (Hb : forallb ok [["mkdir"; "-p"; KEYS_DIR]; genrsa_cmd KEYS_DIR;
                              pubout_cmd KEYS_DIR] = true).
    { apply (run_set_e_before ok _ [] (chmod_cmd KEYS_DIR)); [|exact H].
      intros [E|[E|[E|[]]]]; discriminate E. }
    cbn [forallb] in Hb; rewrite andb_true_r in Hb.
    apply andb_true_iff in Hb as [H1 Hb]; apply andb_true_iff in Hb as [H2 H3].
    repeat split; assumption. }
  assert (Hq : forall r : list (list string) * exit_status * string,
            r = (let '(t, b) := run_set_e ok (key_cmds KEYS_DIR) in
                 if b then (t, Exit0, display pem) else (t, ExitNonzero, "")) ->
            fst (fst r) = fst (run_set_e ok (key_cmds KEYS_DIR))).
  { intros r ->; destruct (run_set_e ok (key_cmds KEYS_DIR)) as [t []]; reflexivity. }
  unfold generate_keys in Hin; cbv zeta in Hin.
  destruct (dir_exists && key_exists);
    [destruct ans as [a|]; [|destruct Hin];
     destruct (negb (String.eqb a "y") && negb (String.eqb a "Y")); [destruct Hin|]|];
    rewrite (Hq _ eq_refl) in Hin; exact (Hp Hin).
Qed.

Lemma generate_keys_chmod_after_witness :
  In (chmod_cmd "/p/keys")
     (fst (fst (generate_keys (fun _ => true) false false None "/p/keys" ""))) /\
  (true = true /\ true = true /\ true = true).
Proof.
  assert (Hin : In (chmod_cmd "/p/keys")
     (fst (fst (generate_keys (fun _ => true) false false None "/p/keys" "")))).
  { vm_compute; right; right; right; left; reflexivity. }
  split; [exact Hin|].
  exact (generate_keys_chmod_after (fun _ => true) _ _ _ _ _ Hin).
Defined.

Lemma lines_aux_line (l rest cur : string) :
  no_newline l = true -> lines_aux (l ++ String "010" rest) cur = (cur ++ l) :: lines_aux rest "".
Proof.
  revert cur; induction l as [|c l IH]; intros cur Hl.
  - rewrite str_append_nil_r; reflexivity.
  - cbn [no_newline] in Hl; apply andb_true_iff in Hl as [Hc Hl].
    cbn [append lines_aux]; destruct (Ascii.eqb c "010"); [discriminate Hc|].
    rewrite IH by exact Hl; rewrite <- str_append_assoc; reflexivity.
Qed.

Lemma lines_aux_body (ls : list string) (rest : string) :
  Forall (fun l => no_newline l = true) ls ->
  lines_aux (str_concat (map (fun l => l ++ nl) ls) ++ rest) "" = (ls ++ lines_aux rest "")%list.
Proof.
  induction 1 as [|x r Hx _ IH]; [reflexivity|].
  cbn [map str_concat app].
  rewrite <- !str_append_assoc; change (nl ++ ?y) with (String "010" y).
  rewrite lines_aux_line by exact Hx; rewrite IH; reflexivity.
Qed.

Lemma tr_d_app (c : ascii) (a b : string) : tr_d c (a ++ b) = tr_d c a ++ tr_d c b.
Proof.
  induction a as [|x a IH]; [reflexivity|].
  cbn [append tr_d]; rewrite IH; destruct (Ascii.eqb x c); reflexivity.
Qed.

Lemma tr_d_no_newline (l : string) : no_newline l = true -> tr_d "010" l = l.
Proof.
  induction l as [|c l IH]; [reflexivity|].
  cbn [no_newline tr_d]; intros H; apply andb_true_iff in H as [Hc H].
  destruct (Ascii.eqb c "010"); [discriminate Hc|rewrite IH by exact H; reflexivity].
Qed.

(** The key shown for [setup.sql]: for a public key file whose body lines
    carry neither a newline nor the text [PUBLIC KEY], the pipeline drops
    the header and footer lines and joins the body lines with nothing
    between them. *)
Theorem display_pem (body : list string)
  (Hbody : Forall (fun l => no_newline l = true /\ contains "PUBLIC KEY" l = false) body) :
  display (pem_of body) = str_concat body.
Proof.
  assert (Hnl : Forall (fun l => no_newline l = true) body)
    by (eapply Forall_impl; [|exact Hbody]; intros l [H _]; exact H).
  unfold display, grep_v, lines, pem_of.
  change (nl ++ ?y) with (String "010" y).
  rewrite lines_aux_line by reflexivity.
  rewrite lines_aux_body by exact Hnl.
  change (lines_aux ("-----END PUBLIC KEY-----" ++ String "010" "") "")
    with ["-----END PUBLIC KEY-----"].
  cbn [filter append].
  change (negb (contains "PUBLIC KEY" "-----BEGIN PUBLIC KEY-----")) with false.
  rewrite filter_app; cbn [filter].
  change (negb (contains "PUBLIC KEY" "-----END PUBLIC KEY-----")) with false.
  rewrite app_nil_r.
  replace (filter (fun l => negb (contains "PUBLIC KEY" l)) body) with body.
  2:{ induction Hbody as [|x r [_ Hx] _ IH]; [reflexivity|].
      cbn [filter]; rewrite Hx; cbn [negb]; rewrite <- IH; [reflexivity|].
      inversion Hnl; assumption. }
  clear Hbody; induction Hnl as [|x r Hx _ IH]; [reflexivity|].
  cbn [map str_concat]; rewrite tr_d_app, tr_d_app, IH, tr_d_no_newline by exact Hx.
  change (tr_d "010" nl) with ""; rewrite str_append_nil_r; reflexivity.
Qed.

Lemma display_pem_witness :
  Forall (fun l => no_newline l = true /\ contains "PUBLIC KEY" l = false)
         ["MIIBIjANBgkqhkiG9w0BAQEFAAOCAQ8A"; "MIIBCgKCAQEAu1SU1LfVLPHCozMxH2Mo"] /\
  display (pem_of ["MIIBIjANBgkqhkiG9w0BAQEFAAOCAQ8A"; "MIIBCgKCAQEAu1SU1LfVLPHCozMxH2Mo"]) =
  str_concat ["MIIBIjANBgkqhkiG9w0BAQEFAAOCAQ8A"; "MIIBCgKCAQEAu1SU1LfVLPHCozMxH2Mo"].
Proof.
  assert (H : Forall (fun l => no_newline l = true /\ contains "PUBLIC KEY" l = false)
         ["MIIBIjANBgkqhkiG9w0BAQEFAAOCAQ8A"; "MIIBCgKCAQEAu1SU1LfVLPHCozMxH2Mo"])
    by (repeat constructor).
  split; [exact H|exact (display_pem _ H)].
Defined.

End GenerateKeysFacts.
